(** * cmd-line-executor: the MCP command runner of [server.py]

    A shallow embedding of [src/cmd_line_executor/server.py]: the three
    coroutines [run_cmd_line], [list_tools] and [call_tool], over a model of
    the Python values they handle and of the one operating-system service
    they call ([asyncio.create_subprocess_exec]); [json.dumps] is taken as
    the library gives it, a call that returns a text or raises.

    - [Py]      : Python data as the program sees it ([str] as a sequence of
                  code points, [bytes], JSON-shaped values, exceptions) and the
                  built-ins the program calls on them ([bytes.decode],
                  [str.strip], [str.split], truthiness, [or]).
    - [Effects] : the calls that leave the program (process creation,
                  [communicate], [logger.error]) recorded in a trace, with
                  Python's raise / try-except on top.
    - [Server]  : the code of [server.py] itself.
    - the properties of the specification, one theorem each, and further
      properties read off the code. *)

From Stdlib Require Import ZArith NArith List Strings.String Strings.Ascii Strings.Byte Bool Lia.
From Stdlib Require Import Floats.SpecFloat.
From stdpp Require Import base option list gmap.

Local Open Scope N_scope.

(* ===================================================================== *)
(** ** Python values and built-ins *)
(* ===================================================================== *)

Module Py.

(** A Python [str] is a sequence of Unicode code points. *)
Abbreviation pystr := (list N).

(** A Python [bytes] object. *)
Abbreviation bytes := (list byte).

(** A string literal of the source (all of them are ASCII). *)
Definition lit (s : string) : pystr :=
  List.map N_of_ascii (list_ascii_of_string s).

(** The bytes of an ASCII literal, for writing down captured output. *)
Definition blit (s : string) : bytes := list_byte_of_string s.

Definition str_eqb (a b : pystr) : bool := bool_decide (a = b).

(** *** [bytes.decode()]: strict UTF-8

    The decoder reads one byte at a time. Between characters it is in state
    [None]; inside a multi-byte character it remembers where the character
    started, its lead byte, how many continuation bytes are still due, the
    range the next byte must lie in (narrower than [80..BF] right after the
    lead bytes [E0], [ED], [F0] and [F4]: no overlong forms, no surrogates,
    nothing above [10FFFF]) and the bits gathered so far. *)

Record pending := Pending {
  p_start : N;      (* position of the lead byte *)
  p_lead  : N;      (* the lead byte *)
  p_need  : nat;    (* continuation bytes still due, minus one *)
  p_lo    : N;      (* admissible range of the next byte *)
  p_hi    : N;
  p_acc   : N       (* payload bits read so far *)
}.

Inductive decode_reason :=
| InvalidStart
| InvalidContinuation
| UnexpectedEnd.

(** What [UnicodeDecodeError] carries: the offending range [start, end_),
    the byte at [start], and the reason. *)
Record decode_error := DecodeError {
  de_start  : N;
  de_end    : N;
  de_byte   : N;
  de_reason : decode_reason
}.

Definition lead_byte (pos b : N) : decode_error + (option N * option pending) :=
  if b <? 0x80 then inr (Some b, None)
  else if b <? 0xC2 then inl (DecodeError pos (pos + 1) b InvalidStart)
  else if b <? 0xE0 then
    inr (None, Some (Pending pos b 0 0x80 0xBF (N.land b 0x1F)))
  else if b <? 0xF0 then
    let lo := if b =? 0xE0 then 0xA0 else 0x80 in
    let hi := if b =? 0xED then 0x9F else 0xBF in
    inr (None, Some (Pending pos b 1 lo hi (N.land b 0x0F)))
  else if b <? 0xF5 then
    let lo := if b =? 0xF0 then 0x90 else 0x80 in
    let hi := if b =? 0xF4 then 0x8F else 0xBF in
    inr (None, Some (Pending pos b 2 lo hi (N.land b 0x07)))
  else inl (DecodeError pos (pos + 1) b InvalidStart).

Definition continuation_byte (pos b : N) (p : pending)
  : decode_error + (option N * option pending) :=
  if (p_lo p <=? b) && (b <=? p_hi p) then
    let acc := N.lor (N.shiftl (p_acc p) 6) (N.land b 0x3F) in
    match p_need p with
    | O => inr (Some acc, None)
    | S k => inr (None, Some (Pending (p_start p) (p_lead p) k 0x80 0xBF acc))
    end
  else inl (DecodeError (p_start p) pos (p_lead p) InvalidContinuation).

Fixpoint utf8_go (bs : bytes) (pos : N) (st : option pending)
  : decode_error + pystr :=
  match bs with
  | [] =>
      match st with
      | None => inr []
      | Some p => inl (DecodeError (p_start p) pos (p_lead p) UnexpectedEnd)
      end
  | b :: bs' =>
      let step := match st with
                  | None => lead_byte pos (Byte.to_N b)
                  | Some p => continuation_byte pos (Byte.to_N b) p
                  end in
      match step with
      | inl e => inl e
      | inr (out, st') =>
          match utf8_go bs' (pos + 1) st' with
          | inl e => inl e
          | inr s => inr (match out with Some c => c :: s | None => s end)
          end
      end
  end.

Definition utf8_decode (bs : bytes) : decode_error + pystr := utf8_go bs 0 None.

(** [str()] of a [UnicodeDecodeError]. *)

Definition hex_digit (n : N) : N :=
  if n <? 10 then 48 + n else 87 + n.

Definition hex2 (b : N) : pystr := [hex_digit (b / 16); hex_digit (b mod 16)].

Fixpoint uint_digits (d : Decimal.uint) : pystr :=
  match d with
  | Decimal.Nil => []
  | Decimal.D0 d => 48 :: uint_digits d
  | Decimal.D1 d => 49 :: uint_digits d
  | Decimal.D2 d => 50 :: uint_digits d
  | Decimal.D3 d => 51 :: uint_digits d
  | Decimal.D4 d => 52 :: uint_digits d
  | Decimal.D5 d => 53 :: uint_digits d
  | Decimal.D6 d => 54 :: uint_digits d
  | Decimal.D7 d => 55 :: uint_digits d
  | Decimal.D8 d => 56 :: uint_digits d
  | Decimal.D9 d => 57 :: uint_digits d
  end.

Definition str_of_N (n : N) : pystr := uint_digits (N.to_uint n).

Definition reason_str (r : decode_reason) : pystr :=
  match r with
  | InvalidStart => lit "invalid start byte"
  | InvalidContinuation => lit "invalid continuation byte"
  | UnexpectedEnd => lit "unexpected end of data"
  end.

Definition decode_error_str (e : decode_error) : pystr :=
  if de_end e =? de_start e + 1 then
    lit "'utf-8' codec can't decode byte 0x" ++ hex2 (de_byte e)
      ++ lit " in position " ++ str_of_N (de_start e)
      ++ lit ": " ++ reason_str (de_reason e)
  else
    lit "'utf-8' codec can't decode bytes in position " ++ str_of_N (de_start e)
      ++ lit "-" ++ str_of_N (de_end e - 1)
      ++ lit ": " ++ reason_str (de_reason e).

(** *** [str.isspace] on one code point, [str.strip()], [str.split(sep)] *)

Definition isspace (c : N) : bool :=
  ((0x09 <=? c) && (c <=? 0x0D)) || ((0x1C <=? c) && (c <=? 0x20))
  || (c =? 0x85) || (c =? 0xA0) || (c =? 0x1680)
  || ((0x2000 <=? c) && (c <=? 0x200A))
  || (c =? 0x2028) || (c =? 0x2029) || (c =? 0x202F) || (c =? 0x205F)
  || (c =? 0x3000).

Fixpoint lstrip (s : pystr) : pystr :=
  match s with
  | [] => []
  | c :: s' => if isspace c then lstrip s' else s
  end.

Definition rstrip (s : pystr) : pystr := rev (lstrip (rev s)).

Definition strip (s : pystr) : pystr := lstrip (rstrip s).

(** [s.split(sep)] for a separator of one character (the source only ever
    splits on ['\n']). *)
Fixpoint split (sep : N) (s : pystr) : list pystr :=
  match s with
  | [] => [[]]
  | c :: s' =>
      if c =? sep then [] :: split sep s'
      else match split sep s' with
           | seg :: segs => (c :: seg) :: segs
           | [] => [[c]]
           end
  end.

(** The character ['\n']. *)
Definition newline : N := 10.

(** *** Values

    The values that reach the program: what a JSON payload deserialises to
    ([None], [bool], [int], [float], [str], [list], [dict] keyed by [str]).
    [cmd] and [args] are annotated [str] and [str | None] in the source, but
    nothing checks the annotation at run time, so the functions below take
    any value. *)

#[local] Set Warnings "-register-all".

Inductive pyval :=
| PNone
| PBool (b : bool)
| PInt (n : Z)
| PFloat (f : spec_float)
| PStr (s : pystr)
| PList (l : list pyval)
| PDict (d : gmap pystr pyval).

(** Truth value testing, as done by [if args:]. *)
Definition truthy (v : pyval) : bool :=
  match v with
  | PNone => false
  | PBool b => b
  | PInt n => negb (n =? 0)%Z
  | PFloat f => match f with S754_zero _ => false | _ => true end
  | PStr s => negb (bool_decide (s = []))
  | PList l => match l with [] => false | _ => true end
  | PDict d => negb (size d =? 0)%nat
  end.

(** [if stdout_bytes]: a [bytes] object is true when it is not empty. *)
Definition bytes_truthy (b : bytes) : bool :=
  match b with [] => false | _ => true end.

(** [process.returncode or 0], with [returncode : int | None]. *)
Definition or_zero (rc : option Z) : Z :=
  match rc with
  | None => 0%Z
  | Some n => if (n =? 0)%Z then 0%Z else n
  end.

(** *** Exceptions

    The classes that matter to the two [except] clauses of the source, and
    [str(e)]. [CancelledError], [KeyboardInterrupt] and [SystemExit] derive
    from [BaseException] only; every other class derives from [Exception];
    the [OSError] family is what a failed process creation raises. *)

Inductive exn_class :=
| SubprocessError
| FileNotFoundError
| PermissionError
| OSError
| UnicodeDecodeError
| ValueError
| TypeError
| RuntimeError
| CancelledError
| KeyboardInterrupt
| SystemExit.

Record exn := Exn { exn_type : exn_class; exn_str : pystr }.

(** [isinstance(e, subprocess.SubprocessError)] *)
Definition is_SubprocessError (e : exn) : bool :=
  match exn_type e with SubprocessError => true | _ => false end.

(** [isinstance(e, Exception)] *)
Definition is_Exception (e : exn) : bool :=
  match exn_type e with
  | CancelledError | KeyboardInterrupt | SystemExit => false
  | _ => true
  end.

(** [isinstance(e, OSError)] *)
Definition is_OSError (e : exn) : bool :=
  match exn_type e with
  | FileNotFoundError | PermissionError | OSError => true
  | _ => false
  end.

End Py.

(* ===================================================================== *)
(** ** Effects: the operating system, the trace, raise and try/except *)
(* ===================================================================== *)

Module Effects.
Import Py.

(** [asyncio.subprocess.PIPE] and its siblings; a stream argument left out
    of the call keeps its default [None] (no redirection is set up). *)
Inductive redirect := PIPE | DEVNULL | STDOUT.

(** The two process-creation services of [asyncio]: [create_subprocess_exec]
    hands an argument vector to the OS loader, [create_subprocess_shell]
    hands a command line to the shell. *)
Inductive os_call :=
| SubprocessExec (argv : list pyval) (stdin stdout stderr : option redirect)
| SubprocessShell (cmdline : pyval) (stdin stdout stderr : option redirect).

(** What awaiting [process.communicate()] can raise. [communicate] reads the
    two pipes and waits for the child to exit: it can fail on the pipes (an
    [OSError]) or be interrupted ([CancelledError], [KeyboardInterrupt]);
    [subprocess.SubprocessError] is raised when a process is created, never
    here. *)
Record comm_failure := CommFailure {
  raised : exn;
  raised_not_subprocess : is_SubprocessError raised = false
}.

(** A created process, as far as the program looks at it: what
    [await process.communicate()] gives (the captured standard output and
    standard error, or an exception) and the [returncode] attribute read
    afterwards ([int | None]). *)
Record process := Process {
  communicate_result : comm_failure + (bytes * bytes);
  returncode : option Z
}.

(** The operating system: its answer to each process-creation call, either
    the exception raised or the process created. *)
Abbreviation world := (os_call -> exn + process).

Inductive event :=
| EvSpawn (c : os_call)          (* a process-creation call was made *)
| EvCommunicate                  (* [process.communicate()] was awaited *)
| EvLogError (msg : pystr).      (* [logger.error(msg)] *)

Inductive outcome (A : Type) :=
| Returned (a : A)
| Raised (e : exn).
Arguments Returned {A} a.
Arguments Raised {A} e.

(** A computation: the events it caused, in order, and how it ended. *)
Record M (A : Type) := Run { trace : list event; result : outcome A }.
Arguments Run {A} trace result.
Arguments trace {A} m.
Arguments result {A} m.

#[export] Instance M_ret : MRet M := fun A a => Run [] (Returned a).

#[export] Instance M_bind : MBind M := fun A B k m =>
  match result m with
  | Returned a => Run (trace m ++ trace (k a)) (result (k a))
  | Raised e => Run (trace m) (Raised e)
  end.

Definition raise {A} (e : exn) : M A := Run [] (Raised e).

Definition emit (ev : event) : M unit := Run [ev] (Returned tt).

Definition lift {A} (r : exn + A) : M A :=
  match r with
  | inl e => raise e
  | inr a => mret a
  end.

(** [try: body  except C1 as e: ...  except C2 as e: ...]: [handlers e] is
    the body of the first clause whose class [e] is an instance of, or
    [None] when no clause matches and [e] propagates. *)
Definition try_except {A} (body : M A) (handlers : exn -> option (M A)) : M A :=
  match result body with
  | Returned _ => body
  | Raised e =>
      match handlers e with
      | Some h => Run (trace body ++ trace h) (result h)
      | None => body
      end
  end.

(** [await asyncio.create_subprocess_exec] on the unpacked [argv], with the
    stream arguments given. *)
Definition create_subprocess_exec (os : world) (argv : list pyval)
    (stdin stdout stderr : option redirect) : M process :=
  let c := SubprocessExec argv stdin stdout stderr in
  _ ← emit (EvSpawn c); lift (os c).

(** [await process.communicate()] *)
Definition communicate (p : process) : M (bytes * bytes) :=
  _ ← emit EvCommunicate;
  match communicate_result p with
  | inl f => raise (raised f)
  | inr captured => mret captured
  end.

(** [b.decode()] *)
Definition decode (b : bytes) : M pystr :=
  match utf8_decode b with
  | inl err => raise (Exn UnicodeDecodeError (decode_error_str err))
  | inr s => mret s
  end.

(** [logger.error(msg)] *)
Definition logger_error (msg : pystr) : M unit := emit (EvLogError msg).

End Effects.

(* ===================================================================== *)
(** ** [server.py] *)
(* ===================================================================== *)

Module Server.
Import Py Effects.

(** The dictionary [run_cmd_line] returns; its keys are fixed. *)
Record CommandResult := {
  cmd : pyval;
  args : pyval;
  status_code : Z;
  stdout : list pystr;
  stderr : list pystr
}.

(** Lines 31-33: [cmd_list = [cmd]], then [if args: cmd_list.append(args)]. *)
Definition cmd_list (cmd args : pyval) : list pyval :=
  [cmd] ++ (if truthy args then [args] else []).

(** Lines 44 and 45, for one stream:
    [b.decode().strip().split('\n') if b else []]. *)
Definition decode_strip_split (b : bytes) : M (list pystr) :=
  if bytes_truthy b then s ← decode b; mret (split newline (strip s))
  else mret [].

(** Lines 47 and 48: [[line for line in lines if line]]. *)
Definition nonempty_lines (lines : list pystr) : list pystr :=
  List.filter (fun line => truthy (PStr line)) lines.

Definition run_cmd_line (os : world) (cmd args : pyval) : M CommandResult :=
  let cmd_list := cmd_list cmd args in
  try_except
    (process ← create_subprocess_exec os cmd_list None (Some PIPE) (Some PIPE);
     '(stdout_bytes, stderr_bytes) ← communicate process;
     stdout_lines ← decode_strip_split stdout_bytes;
     stderr_lines ← decode_strip_split stderr_bytes;
     let stdout_lines := nonempty_lines stdout_lines in
     let stderr_lines := nonempty_lines stderr_lines in
     mret {| cmd := cmd;
             args := args;
             status_code := or_zero (returncode process);
             stdout := stdout_lines;
             stderr := stderr_lines |})
    (fun e =>
       if is_SubprocessError e then
         Some (mret {| cmd := cmd;
                       args := args;
                       status_code := 1;
                       stdout := [];
                       stderr := [exn_str e] |})
       else if is_Exception e then
         Some (mret {| cmd := cmd;
                       args := args;
                       status_code := 1;
                       stdout := [];
                       stderr := [lit "Unexpected error: " ++ exn_str e] |})
       else None).

(** A dictionary display [{k1: v1, ...}]: keys are inserted left to right. *)
Definition dict (items : list (pystr * pyval)) : pyval :=
  PDict (fold_left (fun d kv => <[kv.1 := kv.2]> d) items ∅).

Record Tool := {
  name : pystr;
  description : pystr;
  inputSchema : pyval
}.

Definition list_tools : M (list Tool) :=
  mret [
    {| name := lit "run_command";
       description :=
         lit "Runs a local command on the command line. Can take arguments.";
       inputSchema :=
         dict [
           (lit "type", PStr (lit "object"));
           (lit "properties",
             dict [
               (lit "cmd",
                 dict [ (lit "type", PStr (lit "string"));
                        (lit "description", PStr (lit "The command to run.")) ]);
               (lit "args",
                 dict [ (lit "type", PStr (lit "string"));
                        (lit "description",
                          PStr (lit "The arguments to the command")) ])
             ]);
           (lit "required", PList [PStr (lit "cmd")])
         ] |}
  ].

(** The text [json.dumps(obj, indent=2)] returns: the serialiser is not part
    of the program, and its text is kept as the call itself. *)
Record json_text := json_dumps { dumped : CommandResult; indent : Z }.

(** [json.dumps] does not return on every value: it raises [ValueError] on
    an [int] too long to print, [RecursionError] on values nested too deep.
    Whether it raises on a result, and what, is the library's answer. *)
Abbreviation serialiser := (CommandResult -> option exn).

(** [json.dumps(obj, indent=indent)] *)
Definition dumps (js : serialiser) (obj : CommandResult) (indent : Z)
  : M json_text :=
  match js obj with
  | Some e => raise e
  | None => mret (json_dumps obj indent)
  end.

(** [TextContent(type=.., text=..)] *)
Record TextContent := { type : pystr; text : json_text }.

Definition call_tool (os : world) (js : serialiser) (name : pystr)
    (arguments : pyval) : M (list TextContent) :=
  if negb (str_eqb name (lit "run_command")) then
    raise (Exn ValueError (lit "Unknown tool: " ++ name))
  else
    match arguments with
    | PDict d =>
        match d !! lit "cmd" with
        | None => raise (Exn ValueError (lit "Invalid arguments"))
        | Some cmd =>
            let args := match d !! lit "args" with
                        | Some a => a
                        | None => PNone
                        end in
            try_except
              (output ← run_cmd_line os cmd args;
               text ← dumps js output 2;
               mret [ {| type := lit "text";
                         text := text |} ])
              (fun e =>
                 if is_Exception e then
                   Some (_ ← logger_error (lit "Error: " ++ exn_str e);
                         raise (Exn RuntimeError (lit "Error: " ++ exn_str e)))
                 else None)
        end
    | _ => raise (Exn ValueError (lit "Invalid arguments"))
    end.

End Server.

(* ===================================================================== *)
(** ** Vocabulary of the properties *)
(* ===================================================================== *)

Module Props.
Import Py Effects Server.

(** The one process-creation call [run_cmd_line] makes. *)
Definition spawn_call (cmd args : pyval) : os_call :=
  SubprocessExec (cmd_list cmd args) None (Some PIPE) (Some PIPE).

(** The result both [except] clauses build, up to the message. *)
Definition envelope (cmd args : pyval) (msg : pystr) : CommandResult :=
  {| cmd := cmd; args := args; status_code := 1; stdout := []; stderr := [msg] |}.

(** How an exception raised inside the [try] block leaves [run_cmd_line]. *)
Definition handled (cmd args : pyval) (e : exn) : outcome CommandResult :=
  if is_SubprocessError e then Returned (envelope cmd args (exn_str e))
  else if is_Exception e then
    Returned (envelope cmd args (lit "Unexpected error: " ++ exn_str e))
  else Raised e.

(** Lines 44/45 without the monad: the lines of one captured stream, or the
    exception [decode] raises. *)
Definition stream_lines (b : bytes) : exn + list pystr :=
  if bytes_truthy b then
    match utf8_decode b with
    | inl err => inl (Exn UnicodeDecodeError (decode_error_str err))
    | inr s => inr (split newline (strip s))
    end
  else inr [].

(** [run_cmd_line] written out path by path. *)
Definition run_paths (os : world) (cmd args : pyval) : M CommandResult :=
  let c := spawn_call cmd args in
  match os c with
  | inl e => Run [EvSpawn c] (handled cmd args e)
  | inr p =>
      Run [EvSpawn c; EvCommunicate]
        match communicate_result p with
        | inl f => handled cmd args (raised f)
        | inr (out, err) =>
            match stream_lines out with
            | inl e => handled cmd args e
            | inr lines_out =>
                match stream_lines err with
                | inl e => handled cmd args e
                | inr lines_err =>
                    Returned {| cmd := cmd;
                                args := args;
                                status_code := or_zero (returncode p);
                                stdout := nonempty_lines lines_out;
                                stderr := nonempty_lines lines_err |}
                end
            end
        end
  end.

(** The process-creation calls recorded in a trace. *)
Definition os_calls (t : list event) : list os_call :=
  omap (fun ev => match ev with EvSpawn c => Some c | _ => None end) t.

Definition via_shell (c : os_call) : bool :=
  match c with SubprocessExec _ _ _ _ => false | SubprocessShell _ _ _ _ => true end.

Definition stdin_of (c : os_call) : option redirect :=
  match c with SubprocessExec _ i _ _ | SubprocessShell _ i _ _ => i end.

Definition stdout_of (c : os_call) : option redirect :=
  match c with SubprocessExec _ _ o _ | SubprocessShell _ _ o _ => o end.

Definition stderr_of (c : os_call) : option redirect :=
  match c with SubprocessExec _ _ _ e | SubprocessShell _ _ _ e => e end.

Definition argv_of (c : os_call) : list pyval :=
  match c with SubprocessExec argv _ _ _ => argv | SubprocessShell _ _ _ _ => [] end.

(** The text-to-lines pipeline of the specification, in its words: strip
    trailing whitespace, split on newlines, discard empty segments. *)
Definition lines_as_specified (s : pystr) : list pystr :=
  nonempty_lines (split newline (rstrip s)).

(** The same pipeline with whitespace stripped at both ends. *)
Definition text_lines (s : pystr) : list pystr :=
  nonempty_lines (split newline (strip s)).

(** The exit status the specification asks for: the process's own, an absent
    one counted as [0]. *)
Definition status_as_specified (rc : option Z) : Z :=
  match rc with Some n => n | None => 0%Z end.

(** [isinstance(arguments, dict) and "cmd" in arguments] *)
Definition is_dict_with_cmd (arguments : pyval) : bool :=
  match arguments with
  | PDict d => bool_decide (is_Some (d !! lit "cmd"))
  | _ => false
  end.

(** [v[k]] where [v] is a dictionary holding [k]. *)
Definition subscript (v : pyval) (k : pystr) : option pyval :=
  match v with PDict d => d !! k | _ => None end.

(** The keys of a dictionary. *)
Definition keys (v : pyval) : gset pystr :=
  match v with PDict d => dom d | _ => ∅ end.

(** *** Operating systems to run the program against *)

(** An OS that answers every process-creation call the same way. *)
Definition os_fixed (answer : exn + process) : world := fun _ => answer.

Definition enoent : exn :=
  Exn FileNotFoundError
    (lit "[Errno 2] No such file or directory: 'nonexistent_binary_xyz'").

(** No executable can be found. *)
Definition os_not_found : world := os_fixed (inl enoent).

(** A process that prints [out] on standard output, nothing on standard
    error, and exits with [status]. *)
Definition prints (out : bytes) (status : Z) : process :=
  Process (inr (out, [])) (Some status).

(** An OS on which a command with one argument prints ["hello world\n"] and
    nothing else can be found. *)
Definition os_echo_only : world := fun c =>
  match c with
  | SubprocessExec [_; _] _ _ _ =>
      inr (prints (blit "hello world" ++ [Byte.x0a]) 0)
  | _ => inl enoent
  end.

(** A serialiser that prints every result. *)
Definition dumps_all : serialiser := fun _ => None.

(** A serialiser that, as CPython 3.11 does, refuses to print a [cmd] that
    is an [int] of more than 4300 digits. *)
Definition dumps_int_limit : serialiser := fun r =>
  match cmd r with
  | PInt n =>
      if (10 ^ 4300 <=? Z.abs n)%Z then
        Some (Exn ValueError
                (lit "Exceeds the limit (4300 digits) for integer string conversion; use sys.set_int_max_str_digits() to increase the limit"))
      else None
  | _ => None
  end.

End Props.

(* ===================================================================== *)
(** ** Vocabulary of the further properties *)
(* ===================================================================== *)

Module Shape.
Import Py Effects Server Props.

(** What a stream argument of a process-creation call connects the child's
    stream to: left out ([None]), the child keeps the stream of the parent,
    here the server; [PIPE] gives it a new pipe to the parent; [DEVNULL] the
    null device; [STDOUT] (for standard error) its own standard output. *)
Inductive binding := Inherited | Piped | Null | IntoStdout.

Definition bound_to (r : option redirect) : binding :=
  match r with
  | None => Inherited
  | Some PIPE => Piped
  | Some DEVNULL => Null
  | Some STDOUT => IntoStdout
  end.

(** A character that [str.strip()] does not remove. *)
Definition nonspace (c : N) : bool := negb (isspace c).

(** A byte of the ASCII range. *)
Definition is_ascii (b : byte) : Prop := Byte.to_N b < 0x80.

(** The lines begin and end on a character that is not whitespace: the
    first line does not start with whitespace, the last does not end with
    it. *)
Definition clean_ends (lines : list pystr) : Prop :=
  (forall line, head lines = Some line ->
     exists c rest, line = c :: rest /\ isspace c = false)
  /\ (forall line, last lines = Some line ->
        exists init c, line = init ++ [c] /\ isspace c = false).

(** The value [call_tool] passes as [args]: [arguments["args"]] when the
    key is there, [None] otherwise (lines 111-113). *)
Definition args_of (d : gmap pystr pyval) : pyval :=
  default PNone (d !! lit "args").

(** [logger.error] was called. *)
Definition is_log (ev : event) : bool :=
  match ev with EvLogError _ => true | _ => false end.

(** The keys a schema lists under ["required"]. *)
Definition required_keys (schema : pyval) : list pystr :=
  match subscript schema (lit "required") with
  | Some (PList ks) =>
      omap (fun k => match k with PStr k => Some k | _ => None end) ks
  | _ => []
  end.

(** The schema the server advertises for its one tool. *)
Definition advertised_schema : option pyval :=
  match result list_tools with
  | Returned [t] => Some (inputSchema t)
  | _ => None
  end.

End Shape.

(* ===================================================================== *)
(** ** Lemmas on the built-ins and on the paths of [run_cmd_line] *)
(* ===================================================================== *)

Import Py Effects Server Props Shape.

Lemma or_zero_status rc : or_zero rc = status_as_specified rc.
Proof.
  destruct rc as [n|]; simpl; [|reflexivity].
  destruct (Z.eqb_spec n 0); congruence.
Qed.

(** [split] always yields at least one segment: its last branch is never
    taken. *)
Lemma split_not_nil sep s : split sep s <> [].
Proof.
  destruct s as [|c s]; simpl; [discriminate|].
  destruct (c =? sep); [discriminate|]. destruct (split sep s); discriminate.
Qed.

Lemma is_OSError_is_Exception e : is_OSError e = true -> is_Exception e = true.
Proof. unfold is_OSError, is_Exception. destruct (exn_type e); congruence. Qed.

(** The decoder on the euro sign, on a truncated euro sign, on an overlong
    slash and on an encoded surrogate. *)
Example decode_euro :
  utf8_decode [Byte.xe2; Byte.x82; Byte.xac] = inr [0x20AC].
Proof. reflexivity. Qed.

Example decode_truncated :
  utf8_decode [Byte.x61; Byte.xe2; Byte.x82]
  = inl (DecodeError 1 3 0xe2 UnexpectedEnd)
  /\ decode_error_str (DecodeError 1 3 0xe2 UnexpectedEnd)
     = lit "'utf-8' codec can't decode bytes in position 1-2: unexpected end of data".
Proof. split; reflexivity. Qed.

Example decode_overlong :
  utf8_decode [Byte.xc0; Byte.xaf] = inl (DecodeError 0 1 0xc0 InvalidStart).
Proof. reflexivity. Qed.

Example decode_surrogate :
  utf8_decode [Byte.xed; Byte.xa0; Byte.x80]
  = inl (DecodeError 0 1 0xed InvalidContinuation).
Proof. reflexivity. Qed.

Example strip_split_example :
  split newline (strip (lit "  a" ++ [newline; newline] ++ lit "b " ++ [newline]))
  = [lit "a"; []; lit "b"].
Proof. reflexivity. Qed.

(** The scenario of the specification: [run_cmd_line("echo", "hello world")]. *)
Example echo_hello_world :
  run_cmd_line os_echo_only (PStr (lit "echo")) (PStr (lit "hello world"))
  = Run [EvSpawn (SubprocessExec [PStr (lit "echo"); PStr (lit "hello world")]
                    None (Some PIPE) (Some PIPE));
         EvCommunicate]
        (Returned {| cmd := PStr (lit "echo");
                     args := PStr (lit "hello world");
                     status_code := 0;
                     stdout := [lit "hello world"];
                     stderr := [] |}).
Proof. reflexivity. Qed.

Lemma nonempty_lines_no_empty lines : ~ In [] (nonempty_lines lines).
Proof.
  unfold nonempty_lines. intros H. apply filter_In in H as [_ H]. discriminate H.
Qed.

Lemma stream_lines_decoded b s :
  utf8_decode b = inr s -> stream_lines b = inr (if bytes_truthy b then split newline (strip s) else []).
Proof. intros H. unfold stream_lines. rewrite H. destruct (bytes_truthy b); reflexivity. Qed.

Lemma stream_lines_text b s :
  utf8_decode b = inr s ->
  exists lines, stream_lines b = inr lines /\ nonempty_lines lines = text_lines s.
Proof.
  intros H. rewrite (stream_lines_decoded _ _ H).
  destruct b as [|b0 b']; simpl.
  - exists []. split; [reflexivity|].
    cbv in H. injection H as <-. reflexivity.
  - eexists. split; reflexivity.
Qed.

Lemma stream_lines_error b e :
  stream_lines b = inl e ->
  is_SubprocessError e = false /\ is_Exception e = true
  /\ exists err, utf8_decode b = inl err /\ exn_str e = decode_error_str err.
Proof.
  unfold stream_lines. destruct (bytes_truthy b); [|discriminate].
  destruct (utf8_decode b) as [err|s]; [|discriminate].
  intros [= <-]. repeat split. exists err. split; reflexivity.
Qed.

Lemma decode_strip_split_paths b :
  decode_strip_split b = lift (stream_lines b).
Proof.
  unfold decode_strip_split, stream_lines, decode.
  destruct (bytes_truthy b); [|reflexivity].
  destruct (utf8_decode b); reflexivity.
Qed.

(** The source and its path-by-path form agree, trace included. *)
Lemma run_cmd_line_paths os cmd args :
  run_cmd_line os cmd args = run_paths os cmd args.
Proof.
  assert (Hh : forall (body : M CommandResult) (e : exn),
    result body = Raised e ->
    try_except body
      (fun e =>
         if is_SubprocessError e then
           Some (mret (envelope cmd args (exn_str e)))
         else if is_Exception e then
           Some (mret (envelope cmd args (lit "Unexpected error: " ++ exn_str e)))
         else None)
    = Run (trace body) (handled cmd args e)).
  { intros [t r] e Hr. simpl in Hr. subst r. unfold try_except, handled; simpl.
    destruct (is_SubprocessError e); simpl; [by rewrite app_nil_r|].
    destruct (is_Exception e); simpl; [by rewrite app_nil_r|reflexivity]. }
  unfold run_cmd_line, run_paths, create_subprocess_exec, communicate.
  fold (spawn_call cmd args). unfold envelope in Hh.
  destruct (os (spawn_call cmd args)) as [e|p];
    cbn [lift mbind M_bind mret M_ret emit raise trace result app];
    [exact (Hh (Run _ _) e eq_refl)|].
  destruct (communicate_result p) as [f|[out err]];
    cbn [lift mbind M_bind mret M_ret emit raise trace result app];
    [exact (Hh (Run _ _) (raised f) eq_refl)|].
  rewrite !decode_strip_split_paths.
  destruct (stream_lines out) as [e|lo];
    cbn [lift mbind M_bind mret M_ret emit raise trace result app];
    [exact (Hh (Run _ _) e eq_refl)|].
  destruct (stream_lines err) as [e|le];
    cbn [lift mbind M_bind mret M_ret emit raise trace result app];
    [exact (Hh (Run _ _) e eq_refl)|].
  reflexivity.
Qed.

Lemma handled_exception cmd args e :
  is_Exception e = true ->
  handled cmd args e
  = Returned (envelope cmd args
      (if is_SubprocessError e then exn_str e
       else lit "Unexpected error: " ++ exn_str e)).
Proof.
  intros He. unfold handled. rewrite He. destruct (is_SubprocessError e); reflexivity.
Qed.

Lemma handled_echo cmd args e :
  match handled cmd args e with
  | Returned r => Server.cmd r = cmd /\ Server.args r = args
  | Raised e' => is_Exception e' = false
  end.
Proof.
  unfold handled. destruct (is_SubprocessError e); [by split|].
  destruct (is_Exception e) eqn:He; [by split|exact He].
Qed.

(** Whatever happens, exactly one process-creation call is made: the one of
    [spawn_call]. *)
Lemma run_cmd_line_calls os cmd args :
  os_calls (trace (run_cmd_line os cmd args)) = [spawn_call cmd args].
Proof.
  rewrite run_cmd_line_paths. unfold run_paths.
  destruct (os (spawn_call cmd args)); reflexivity.
Qed.

(** An exception that leaves [run_cmd_line] is one that neither [except]
    clause matches. *)
Lemma run_cmd_line_raises os cmd args e :
  result (run_cmd_line os cmd args) = Raised e -> is_Exception e = false.
Proof.
  rewrite run_cmd_line_paths. unfold run_paths.
  assert (Hh : forall e0, handled cmd args e0 = Raised e -> is_Exception e = false).
  { intros e0 H0. pose proof (handled_echo cmd args e0) as He.
    rewrite H0 in He. exact He. }
  destruct (os (spawn_call cmd args)) as [e0|p]; cbn [result]; [apply Hh|].
  destruct (communicate_result p) as [f|[out err]]; [apply Hh|].
  destruct (stream_lines out) as [e0|lo]; [apply Hh|].
  destruct (stream_lines err) as [e0|le]; [apply Hh|discriminate].
Qed.

(** What [call_tool] does with a request that passes both checks: it runs
    [run_cmd_line] on the two values of the payload, then serialises the
    result. A result that serialises is wrapped; a serialiser failure that
    derives from [Exception] is logged and raised again as [RuntimeError];
    any other exception, of the runner or of the serialiser, goes through. *)
Lemma call_tool_accepted (os : world) (js : serialiser)
    (d : gmap pystr pyval) (cmd : pyval) :
  d !! lit "cmd" = Some cmd ->
  call_tool os js (lit "run_command") (PDict d)
  = let run := run_cmd_line os cmd (args_of d) in
    match result run with
    | Returned r =>
        match js r with
        | None =>
            Run (trace run)
                (Returned [ {| type := lit "text"; text := json_dumps r 2 |} ])
        | Some e =>
            if is_Exception e then
              Run (trace run ++ [EvLogError (lit "Error: " ++ exn_str e)])
                  (Raised (Exn RuntimeError (lit "Error: " ++ exn_str e)))
            else Run (trace run) (Raised e)
        end
    | Raised e => Run (trace run) (Raised e)
    end.
Proof.
  intros Hc. unfold call_tool.
  change (str_eqb (lit "run_command") (lit "run_command")) with true.
  cbn [negb]. rewrite Hc.
  change (match d !! lit "args" with Some a => a | None => PNone end)
    with (args_of d).
  pose proof (run_cmd_line_raises os cmd (args_of d)) as Hraise.
  destruct (run_cmd_line os cmd (args_of d)) as [t [r|e]]; cbn [result] in Hraise;
    cbv zeta; cbn [trace result].
  - unfold try_except, dumps, logger_error.
    cbn [mbind M_bind mret M_ret raise emit trace result].
    destruct (js r) as [e|];
      cbn [mbind M_bind mret M_ret raise emit trace result].
    + rewrite !app_nil_r. destruct (is_Exception e); [|reflexivity].
      cbn [mbind M_bind mret M_ret raise emit trace result]. reflexivity.
    + by rewrite !app_nil_r.
  - unfold try_except. cbn [mbind M_bind mret M_ret trace result].
    by rewrite (Hraise e eq_refl).
Qed.

(** A request that passes both checks of [call_tool] reaches the runner. *)
Lemma call_tool_invokes_runner (os : world) (js : serialiser)
    (d : gmap pystr pyval) (cmd : pyval) :
  d !! lit "cmd" = Some cmd ->
  os_calls (trace (call_tool os js (lit "run_command") (PDict d)))
  = [spawn_call cmd (default PNone (d !! lit "args"))].
Proof.
  intros Hc. rewrite (call_tool_accepted os js d cmd Hc). cbv zeta.
  fold (args_of d). rewrite <- (run_cmd_line_calls os cmd (args_of d)).
  destruct (result (run_cmd_line os cmd (args_of d))) as [r|e]; [|reflexivity].
  destruct (js r) as [e|]; [|reflexivity].
  destruct (is_Exception e); [|reflexivity].
  cbn [trace]. unfold os_calls. rewrite omap_app. cbn. by rewrite app_nil_r.
Qed.

(* ===================================================================== *)
(** ** The properties *)
(* ===================================================================== *)

(** C1. When the OS fails to create the process (the call raises an
    exception deriving from [Exception], as [FileNotFoundError],
    [PermissionError] and every other [OSError] do), [run_cmd_line] returns
    -- it does not raise -- the result with [status_code = 1], no [stdout]
    line and exactly one [stderr] line, which is [str(e)] for a
    [SubprocessError] and ["Unexpected error: " + str(e)] otherwise. *)
Theorem spawn_failure_envelope os cmd args e :
  os (spawn_call cmd args) = inl e ->
  is_Exception e = true ->
  result (run_cmd_line os cmd args)
  = Returned {| cmd := cmd;
                args := args;
                status_code := 1;
                stdout := [];
                stderr := [if is_SubprocessError e then exn_str e
                           else lit "Unexpected error: " ++ exn_str e] |}.
Proof.
  intros Hos He. rewrite run_cmd_line_paths. unfold run_paths.
  rewrite Hos. cbn [result]. apply handled_exception, He.
Qed.

Lemma spawn_failure_envelope_witness :
  os_not_found (spawn_call (PStr (lit "nonexistent_binary_xyz")) PNone) = inl enoent
  /\ is_Exception enoent = true
  /\ result (run_cmd_line os_not_found (PStr (lit "nonexistent_binary_xyz")) PNone)
     = Returned {| cmd := PStr (lit "nonexistent_binary_xyz");
                   args := PNone;
                   status_code := 1;
                   stdout := [];
                   stderr := [lit "Unexpected error: " ++ exn_str enoent] |}.
Proof.
  split; [reflexivity|]. split; [reflexivity|].
  apply (spawn_failure_envelope os_not_found _ _ enoent); reflexivity.
Defined.

(** C2, as stated, fails: an [args] that is present and not [None] but empty
    adds no token. With [args = ""] the argument vector is [["echo"]]. *)
Lemma argv_empty_args_counterexample :
  PStr [] <> PNone
  /\ List.map argv_of
       (os_calls (trace (run_cmd_line os_echo_only (PStr (lit "echo")) (PStr []))))
     = [[PStr (lit "echo")]].
Proof. split; [discriminate|reflexivity]. Qed.

(** C2, amended. The argument vector handed to the OS is [[cmd, args]] when
    [args] is true in Python's sense (for a string: not empty) and [[cmd]]
    otherwise; [args] goes in as the one value it is, so the vector has at
    most two tokens; it is the only process-creation call of the run. *)
Theorem argv_construction os cmd args :
  exists argv,
    os_calls (trace (run_cmd_line os cmd args))
    = [SubprocessExec argv None (Some PIPE) (Some PIPE)]
    /\ argv = (if truthy args then [cmd; args] else [cmd])
    /\ (length argv <= 2)%nat.
Proof.
  exists (cmd_list cmd args). split; [apply run_cmd_line_calls|].
  unfold cmd_list. destruct (truthy args); simpl; split; (reflexivity || lia).
Qed.

(** C3, as stated, fails: [str.strip()] removes whitespace at both ends, not
    only at the end. A process that prints ["  hello\n"] yields the line
    ["hello"], where the pipeline of the specification keeps ["  hello"]. *)
Lemma leading_whitespace_counterexample :
  let out := blit "  hello" ++ [Byte.x0a] in
  let text := lit "  hello" ++ [newline] in
  utf8_decode out = inr text
  /\ (exists r,
        result (run_cmd_line (os_fixed (inr (prints out 0)))
                  (PStr (lit "echo")) (PStr (lit "  hello"))) = Returned r
        /\ stdout r = [lit "hello"])
  /\ lines_as_specified text = [lit "  hello"].
Proof.
  split; [reflexivity|]. split; [|reflexivity].
  eexists. split; reflexivity.
Qed.

(** C3, amended. Once both streams are captured, [run_cmd_line] returns a
    result in which neither [stdout] nor [stderr] holds an empty string; and
    when both streams decode as UTF-8, [stdout] and [stderr] are the decoded
    texts stripped of leading and trailing whitespace, split at newlines,
    empty segments discarded. *)
Theorem output_lines os cmd args p out err :
  os (spawn_call cmd args) = inr p ->
  communicate_result p = inr (out, err) ->
  exists r,
    result (run_cmd_line os cmd args) = Returned r
    /\ ~ In [] (stdout r) /\ ~ In [] (stderr r)
    /\ forall text_out text_err,
         utf8_decode out = inr text_out -> utf8_decode err = inr text_err ->
         stdout r = text_lines text_out /\ stderr r = text_lines text_err.
Proof.
  intros Hos Hcomm. rewrite run_cmd_line_paths. unfold run_paths.
  rewrite Hos, Hcomm. cbn [result].
  assert (Hdecode_fail : forall b e, stream_lines b = inl e ->
    exists r, handled cmd args e = Returned r
      /\ ~ In [] (stdout r) /\ ~ In [] (stderr r)
      /\ forall s, utf8_decode b = inr s -> False).
  { intros b e Hb. apply stream_lines_error in Hb as (Hs & He & derr & Hd & _).
    unfold handled. rewrite Hs, He. eexists. split; [reflexivity|].
    cbn [stdout stderr envelope]. repeat split.
    - intros [].
    - intros [Hin|[]]. discriminate Hin.
    - intros s Hs'. congruence. }
  destruct (stream_lines out) as [e|lo] eqn:Hout.
  { destruct (Hdecode_fail _ _ Hout) as (r & Hr & H1 & H2 & Habs).
    exists r. repeat split; try assumption; intros; exfalso; eauto. }
  destruct (stream_lines err) as [e|le] eqn:Herr.
  { destruct (Hdecode_fail _ _ Herr) as (r & Hr & H1 & H2 & Habs).
    exists r. repeat split; try assumption; intros; exfalso; eauto. }
  eexists. split; [reflexivity|]. cbn [stdout stderr].
  split; [apply nonempty_lines_no_empty|].
  split; [apply nonempty_lines_no_empty|].
  intros so se Hso Hse.
  destruct (stream_lines_text _ _ Hso) as (lo' & Hlo & <-).
  destruct (stream_lines_text _ _ Hse) as (le' & Hle & <-).
  split; congruence.
Qed.

Lemma output_lines_witness :
  let out := blit " a" ++ [Byte.x0a; Byte.x0a] ++ blit "b " ++ [Byte.x0a] in
  let p := prints out 0 in
  os_fixed (inr p) (spawn_call (PStr (lit "printf")) PNone) = inr p
  /\ communicate_result p = inr (out, [])
  /\ exists r,
       result (run_cmd_line (os_fixed (inr p)) (PStr (lit "printf")) PNone)
       = Returned r
       /\ ~ In [] (stdout r) /\ ~ In [] (stderr r)
       /\ stdout r = [lit "a"; lit "b"] /\ stderr r = [].
Proof.
  intros out p. split; [reflexivity|]. split; [reflexivity|].
  destruct (output_lines (os_fixed (inr p)) (PStr (lit "printf")) PNone p out []
              eq_refl eq_refl) as (r & Hr & Hout & Herr & Hlines).
  exists r. split; [exact Hr|]. split; [exact Hout|]. split; [exact Herr|].
  exact (Hlines _ _ eq_refl eq_refl).
Defined.

(** C4, as stated, fails: the tool name is checked first, so a request with
    an unknown name and a payload without [cmd] is rejected as an unknown
    tool, not for its arguments. *)
Lemma wrong_name_checked_first_counterexample :
  is_dict_with_cmd (dict []) = false
  /\ call_tool os_not_found dumps_all (lit "delete_everything") (dict [])
     = Run [] (Raised (Exn ValueError (lit "Unknown tool: delete_everything")))
  /\ lit "Unknown tool: delete_everything" <> lit "Invalid arguments".
Proof. split; [reflexivity|]. split; [reflexivity|discriminate]. Qed.

(** C4, amended. A call whose tool name is not ["run_command"] raises
    [ValueError("Unknown tool: <name>")]; a call named ["run_command"] whose
    payload is not a dictionary holding [cmd] raises
    [ValueError("Invalid arguments")]. In both cases the trace is empty: the
    runner was not invoked, no process was created, nothing was logged. *)
Theorem call_tool_rejections (os : world) (js : serialiser) (name : pystr)
    (arguments : pyval) :
  (name <> lit "run_command" ->
     call_tool os js name arguments
     = Run [] (Raised (Exn ValueError (lit "Unknown tool: " ++ name))))
  /\ (name = lit "run_command" -> is_dict_with_cmd arguments = false ->
        call_tool os js name arguments
        = Run [] (Raised (Exn ValueError (lit "Invalid arguments")))).
Proof.
  unfold call_tool, str_eqb. split.
  - intros Hname. rewrite bool_decide_eq_false_2 by exact Hname. reflexivity.
  - intros Hname Hargs. rewrite bool_decide_eq_true_2 by exact Hname.
    cbn [negb]. destruct arguments as [| | | | | |d]; try reflexivity.
    cbn [is_dict_with_cmd] in Hargs. apply bool_decide_eq_false in Hargs.
    destruct (d !! lit "cmd") as [c|] eqn:Hc; [|reflexivity].
    exfalso. apply Hargs. by eexists.
Qed.

Lemma call_tool_rejections_witness :
  (lit "delete_everything" <> lit "run_command"
   /\ call_tool os_echo_only dumps_all (lit "delete_everything")
        (dict [(lit "cmd", PStr (lit "echo"))])
      = Run [] (Raised (Exn ValueError (lit "Unknown tool: delete_everything"))))
  /\ (is_dict_with_cmd (dict [(lit "args", PStr (lit "hello"))]) = false
      /\ call_tool os_echo_only dumps_all (lit "run_command")
           (dict [(lit "args", PStr (lit "hello"))])
         = Run [] (Raised (Exn ValueError (lit "Invalid arguments")))).
Proof.
  split; (split; [try discriminate; reflexivity|]).
  - apply (proj1 (call_tool_rejections os_echo_only dumps_all
                    (lit "delete_everything")
                    (dict [(lit "cmd", PStr (lit "echo"))]))).
    discriminate.
  - apply (proj2 (call_tool_rejections os_echo_only dumps_all
                    (lit "run_command")
                    (dict [(lit "args", PStr (lit "hello"))]))); reflexivity.
Defined.

(** C5, as stated, fails: a process that runs to completion with status [0]
    but prints bytes that are not UTF-8 is reported with [status_code = 1]. *)
Lemma undecodable_output_counterexample :
  let p := prints [Byte.xff] 0 in
  communicate_result p = inr ([Byte.xff], [])
  /\ returncode p = Some 0%Z
  /\ exists r,
       result (run_cmd_line (os_fixed (inr p)) (PStr (lit "cat")) (PStr (lit "blob")))
       = Returned r
       /\ status_code r = 1%Z.
Proof.
  split; [reflexivity|]. split; [reflexivity|]. eexists. split; reflexivity.
Qed.

(** C5, amended. When the process was created, ran to completion and both
    captured streams decode as UTF-8, the result carries the process's own
    exit status, an absent one counted as [0]. *)
Theorem exit_status_reported os cmd args p out err text_out text_err :
  os (spawn_call cmd args) = inr p ->
  communicate_result p = inr (out, err) ->
  utf8_decode out = inr text_out ->
  utf8_decode err = inr text_err ->
  exists r,
    result (run_cmd_line os cmd args) = Returned r
    /\ status_code r = status_as_specified (returncode p).
Proof.
  intros Hos Hcomm Hout Herr. rewrite run_cmd_line_paths. unfold run_paths.
  rewrite Hos, Hcomm. cbn [result].
  destruct (stream_lines_text _ _ Hout) as (lo & -> & _).
  destruct (stream_lines_text _ _ Herr) as (le & -> & _).
  eexists. split; [reflexivity|]. apply or_zero_status.
Qed.

Lemma exit_status_reported_witness :
  let out := blit "ls: cannot access" ++ [Byte.x0a] in
  let p := Process (inr ([], out)) (Some 2%Z) in
  os_fixed (inr p) (spawn_call (PStr (lit "ls")) (PStr (lit "/nowhere"))) = inr p
  /\ communicate_result p = inr ([], out)
  /\ utf8_decode [] = inr []
  /\ utf8_decode out = inr (lit "ls: cannot access" ++ [newline])
  /\ exists r,
       result (run_cmd_line (os_fixed (inr p)) (PStr (lit "ls")) (PStr (lit "/nowhere")))
       = Returned r
       /\ status_code r = 2%Z.
Proof.
  intros out p. do 4 (split; [reflexivity|]).
  apply (exit_status_reported (os_fixed (inr p)) _ _ p [] out
           [] (lit "ls: cannot access" ++ [newline])); reflexivity.
Defined.

(** C6, as stated, fails: the call passes no [stdin] argument, and a stream
    left out is not cut off but inherited. The child of a run reads the
    standard input of the server; it is not given the null device, nor a
    pipe of its own. *)
Lemma child_inherits_stdin_counterexample :
  List.map (fun c => bound_to (stdin_of c))
    (os_calls (trace (run_cmd_line os_echo_only (PStr (lit "cat")) PNone)))
  = [Inherited]
  /\ Inherited <> Null
  /\ Inherited <> Piped.
Proof. split; [reflexivity|]. split; discriminate. Qed.

(** C6, amended. Every run makes exactly one process-creation call; it goes
    to the OS loader and not to a shell, asks for pipes on standard output
    and standard error, and passes nothing for standard input: the [stdin]
    argument keeps its default, so the child inherits the standard input of
    the server. *)
Theorem launch_parameters os cmd args :
  exists c,
    os_calls (trace (run_cmd_line os cmd args)) = [c]
    /\ via_shell c = false
    /\ stdin_of c = None
    /\ bound_to (stdin_of c) = Inherited
    /\ stdout_of c = Some PIPE
    /\ bound_to (stdout_of c) = Piped
    /\ stderr_of c = Some PIPE
    /\ bound_to (stderr_of c) = Piped.
Proof.
  exists (spawn_call cmd args). split; [apply run_cmd_line_calls|].
  repeat split.
Qed.

(** C7. [list_tools] takes no argument, reads no state, causes no event and
    returns one descriptor: its name is ["run_command"]; its input schema has
    type ["object"], requires exactly [cmd], and declares the two properties
    [cmd] and [args], both of type ["string"] ([args] is not required). *)
Theorem list_tools_catalog :
  exists t,
    list_tools = Run [] (Returned [t])
    /\ name t = lit "run_command"
    /\ subscript (inputSchema t) (lit "type") = Some (PStr (lit "object"))
    /\ subscript (inputSchema t) (lit "required") = Some (PList [PStr (lit "cmd")])
    /\ exists properties cmd_schema args_schema,
         subscript (inputSchema t) (lit "properties") = Some properties
         /\ keys properties = {[ lit "cmd"; lit "args" ]}
         /\ subscript properties (lit "cmd") = Some cmd_schema
         /\ subscript cmd_schema (lit "type") = Some (PStr (lit "string"))
         /\ subscript properties (lit "args") = Some args_schema
         /\ subscript args_schema (lit "type") = Some (PStr (lit "string")).
Proof.
  eexists. split; [reflexivity|]. split; [reflexivity|].
  split; [reflexivity|]. split; [reflexivity|].
  do 3 eexists. split; [reflexivity|].
  split; [|repeat split; reflexivity].
  cbn [keys dict fold_left fst snd]. rewrite !dom_insert_L, dom_empty_L.
  set_solver.
Qed.

(** C8. The result of a run depends on the OS only through its answer to the
    one process-creation call of that run: two operating systems that answer
    it alike (the same exception, or a process with the same captured bytes
    and the same exit status) give the same run, trace and result. *)
Theorem same_os_behaviour_same_result os1 os2 cmd args :
  os1 (spawn_call cmd args) = os2 (spawn_call cmd args) ->
  run_cmd_line os1 cmd args = run_cmd_line os2 cmd args.
Proof.
  intros Hsame. rewrite !run_cmd_line_paths. unfold run_paths.
  rewrite Hsame. reflexivity.
Qed.

Lemma same_os_behaviour_same_result_witness :
  let os2 := os_fixed (inr (prints (blit "hello world" ++ [Byte.x0a]) 0)) in
  let cmd := PStr (lit "echo") in
  let args := PStr (lit "hello world") in
  os_echo_only (spawn_call cmd args) = os2 (spawn_call cmd args)
  /\ os_echo_only (spawn_call cmd PNone) <> os2 (spawn_call cmd PNone)
  /\ run_cmd_line os_echo_only cmd args = run_cmd_line os2 cmd args.
Proof.
  intros os2 cmd args. split; [reflexivity|]. split; [discriminate|].
  apply (same_os_behaviour_same_result os_echo_only os2 cmd args). reflexivity.
Defined.

(** C9. Every run ends in one of two ways: it returns a result whose [cmd]
    and [args] are the inputs as given ([None] for an absent [args]), on the
    success path and in both [except] clauses alike; or it lets through an
    exception that does not derive from [Exception]. *)
Theorem result_echoes_inputs os cmd args :
  match result (run_cmd_line os cmd args) with
  | Returned r => Server.cmd r = cmd /\ Server.args r = args
  | Raised e => is_Exception e = false
  end.
Proof.
  rewrite run_cmd_line_paths. unfold run_paths.
  destruct (os (spawn_call cmd args)) as [e|p]; cbn [result];
    [apply handled_echo|].
  destruct (communicate_result p) as [e|[out err]]; [apply handled_echo|].
  destruct (stream_lines out) as [e|lines_out]; [apply handled_echo|].
  destruct (stream_lines err) as [e|lines_err]; [apply handled_echo|].
  cbn [Server.cmd Server.args]. split; reflexivity.
Qed.

(** Cancelling the task while it awaits [communicate] is not a failure the
    [except] clauses see: [CancelledError] does not derive from [Exception]
    and leaves [run_cmd_line]. *)
Example cancellation_propagates :
  let cancelled := Exn CancelledError [] in
  result (run_cmd_line
            (os_fixed (inr (Process (inl (CommFailure cancelled eq_refl)) None)))
            (PStr (lit "sleep")) (PStr (lit "1")))
  = Raised cancelled.
Proof. reflexivity. Qed.

(** C10. After the process was created, a failure gives the result with
    [status_code = 1], no [stdout] line and the one [stderr] line
    ["Unexpected error: " + str(e)], whatever the exit status and the
    captured bytes: so it is when [communicate] raises an exception deriving
    from [Exception], and when the bytes of standard output, or else of
    standard error, are not UTF-8. *)
Theorem failure_after_spawn_envelope os cmd args p :
  os (spawn_call cmd args) = inr p ->
  (forall f,
     communicate_result p = inl f ->
     is_Exception (raised f) = true ->
     result (run_cmd_line os cmd args)
     = Returned {| cmd := cmd;
                   args := args;
                   status_code := 1;
                   stdout := [];
                   stderr := [lit "Unexpected error: " ++ exn_str (raised f)] |})
  /\ (forall out err derr,
        communicate_result p = inr (out, err) ->
        utf8_decode out = inl derr
        \/ ((exists text, utf8_decode out = inr text) /\ utf8_decode err = inl derr) ->
        result (run_cmd_line os cmd args)
        = Returned {| cmd := cmd;
                      args := args;
                      status_code := 1;
                      stdout := [];
                      stderr := [lit "Unexpected error: "
                                 ++ decode_error_str derr] |}).
Proof.
  intros Hos. rewrite run_cmd_line_paths. unfold run_paths. rewrite Hos.
  cbn [result]. split.
  - intros f -> He. unfold handled.
    rewrite (raised_not_subprocess f), He. reflexivity.
  - assert (Hfail : forall b derr, utf8_decode b = inl derr ->
      stream_lines b = inl (Exn UnicodeDecodeError (decode_error_str derr))).
    { intros b derr Hb. unfold stream_lines. rewrite Hb.
      destruct b; [discriminate Hb|reflexivity]. }
    intros out err derr -> [Hout|[[text Hout] Herr]].
    + rewrite (Hfail _ _ Hout). reflexivity.
    + destruct (stream_lines_text _ _ Hout) as (lo & -> & _).
      rewrite (Hfail _ _ Herr). reflexivity.
Qed.

Lemma failure_after_spawn_envelope_witness :
  let f := CommFailure (Exn OSError (lit "[Errno 5] Input/output error")) eq_refl in
  let p1 := Process (inl f) (Some 0%Z) in
  let p2 := prints [Byte.xff] 0 in
  (is_Exception (raised f) = true
   /\ result (run_cmd_line (os_fixed (inr p1)) (PStr (lit "cat")) PNone)
      = Returned (envelope (PStr (lit "cat")) PNone
                    (lit "Unexpected error: [Errno 5] Input/output error")))
  /\ (utf8_decode [Byte.xff] = inl (DecodeError 0 1 0xff InvalidStart)
      /\ result (run_cmd_line (os_fixed (inr p2)) (PStr (lit "cat")) PNone)
         = Returned (envelope (PStr (lit "cat")) PNone
                       (lit "Unexpected error: 'utf-8' codec can't decode byte 0xff in position 0: invalid start byte"))).
Proof.
  intros f p1 p2. split; (split; [reflexivity|]).
  - apply (proj1 (failure_after_spawn_envelope (os_fixed (inr p1))
                    (PStr (lit "cat")) PNone p1 eq_refl) f);
      reflexivity.
  - apply (proj2 (failure_after_spawn_envelope (os_fixed (inr p2))
                    (PStr (lit "cat")) PNone p2 eq_refl)
             [Byte.xff] [] (DecodeError 0 1 0xff InvalidStart));
      [reflexivity|left; reflexivity].
Defined.

(* ===================================================================== *)
(** ** Further properties of the code *)
(* ===================================================================== *)

(** *** Facts about [strip], [split] and the decoder *)

Lemma isspace_newline : isspace newline = true.
Proof. reflexivity. Qed.

Lemma lstrip_head s :
  lstrip s = [] \/ exists c rest, lstrip s = c :: rest /\ isspace c = false.
Proof.
  induction s as [|c s IH]; simpl; [by left|].
  destruct (isspace c) eqn:Hc; [exact IH|]. right. by exists c, s.
Qed.

Lemma lstrip_snoc s c :
  isspace c = false -> exists init, lstrip (s ++ [c]) = init ++ [c].
Proof.
  intros Hc. induction s as [|x s IH]; simpl.
  - rewrite Hc. by exists [].
  - destruct (isspace x); [exact IH|]. by exists (x :: s).
Qed.

Lemma lstrip_all_space s : forallb isspace s = true -> lstrip s = [].
Proof.
  induction s as [|c s IH]; simpl; [reflexivity|].
  intros [Hc Hs]%andb_prop. rewrite Hc. by apply IH.
Qed.

Lemma strip_all_space s : forallb isspace s = true -> strip s = [].
Proof.
  intros Hs. unfold strip, rstrip.
  rewrite (lstrip_all_space (rev s)); [reflexivity|].
  apply forallb_forall. intros c Hc%in_rev.
  by apply (proj1 (forallb_forall _ _) Hs).
Qed.

Lemma strip_first s :
  strip s = [] \/ exists c rest, strip s = c :: rest /\ isspace c = false.
Proof. apply lstrip_head. Qed.

Lemma strip_last s :
  strip s = [] \/ exists init c, strip s = init ++ [c] /\ isspace c = false.
Proof.
  unfold strip, rstrip.
  destruct (lstrip_head (rev s)) as [->|(c & rest & -> & Hc)]; [by left|].
  right. simpl. destruct (lstrip_snoc (rev rest) c Hc) as [init ->].
  by exists init, c.
Qed.

Lemma filter_nonspace_lstrip s :
  List.filter nonspace (lstrip s) = List.filter nonspace s.
Proof.
  induction s as [|c s IH]; [reflexivity|].
  cbn [lstrip]. destruct (isspace c) eqn:Hc; [|reflexivity].
  cbn [List.filter]. unfold nonspace at 2. rewrite Hc. exact IH.
Qed.

Lemma filter_nonspace_strip s :
  List.filter nonspace (strip s) = List.filter nonspace s.
Proof.
  unfold strip, rstrip.
  rewrite filter_nonspace_lstrip, List.filter_rev, filter_nonspace_lstrip.
  rewrite <- List.filter_rev. by rewrite rev_involutive.
Qed.

Lemma split_cons_other sep c s :
  (c =? sep) = false ->
  exists seg segs, split sep s = seg :: segs /\ split sep (c :: s) = (c :: seg) :: segs.
Proof.
  intros Hc. simpl. rewrite Hc.
  destruct (split sep s) as [|seg segs] eqn:Hs; [by apply split_not_nil in Hs|].
  by exists seg, segs.
Qed.

Lemma split_snoc_other sep s c :
  (c =? sep) = false ->
  exists segs seg, split sep (s ++ [c]) = segs ++ [seg ++ [c]].
Proof.
  intros Hc. induction s as [|x s (segs & seg & IH)].
  - exists [], []. simpl. by rewrite Hc.
  - simpl. destruct (x =? sep).
    + exists ([] :: segs), seg. by rewrite IH.
    + rewrite IH. destruct segs as [|h t]; simpl.
      * by exists [], (x :: seg).
      * by exists ((x :: h) :: t), seg.
Qed.

Lemma split_no_sep sep s :
  Forall (fun seg => ~ In sep seg) (split sep s).
Proof.
  induction s as [|c s IH]; simpl.
  - constructor; [intros []|constructor].
  - destruct (N.eqb_spec c sep) as [->|Hne].
    + constructor; [intros []|exact IH].
    + destruct (split sep s) as [|seg segs]; [repeat constructor; intros [?|[]]; congruence|].
      inversion IH as [|? ? Hseg Hsegs]; subst.
      constructor; [|exact Hsegs]. intros [?|?]; [congruence|by apply Hseg].
Qed.

Lemma concat_split sep s :
  concat (split sep s) = List.filter (fun c => negb (c =? sep)) s.
Proof.
  induction s as [|c s IH]; simpl; [reflexivity|].
  destruct (c =? sep); simpl; [exact IH|].
  destruct (split sep s) as [|seg segs]; simpl in *; by rewrite <- IH.
Qed.

Lemma concat_nonempty_lines lines : concat (nonempty_lines lines) = concat lines.
Proof.
  unfold nonempty_lines. induction lines as [|l ls IH]; simpl; [reflexivity|].
  destruct l as [|c l]; [exact IH|].
  change (concat ((c :: l) :: List.filter (fun line => truthy (PStr line)) ls)
          = concat ((c :: l) :: ls)).
  cbn [concat]. by rewrite IH.
Qed.

Lemma nonempty_lines_Forall (P : pystr -> Prop) lines :
  Forall P lines -> Forall P (nonempty_lines lines).
Proof.
  unfold nonempty_lines. intros H. apply List.Forall_forall.
  intros l [Hl _]%filter_In. by apply (proj1 (List.Forall_forall _ _) H).
Qed.

Lemma utf8_go_ascii bs pos :
  Forall is_ascii bs -> utf8_go bs pos None = inr (List.map Byte.to_N bs).
Proof.
  intros H. revert pos. induction H as [|b bs Hb _ IH]; intros pos; simpl;
    [reflexivity|].
  unfold lead_byte. unfold is_ascii in Hb.
  apply N.ltb_lt in Hb. rewrite Hb. by rewrite IH.
Qed.

(** The lines of a text begin and end on a character that is not
    whitespace. *)
Lemma text_lines_clean_ends s : clean_ends (text_lines s).
Proof.
  unfold text_lines. split.
  - destruct (strip_first s) as [->|(c & rest & -> & Hc)]; [discriminate|].
    assert (Hsep : (c =? newline) = false).
    { destruct (N.eqb_spec c newline) as [->|]; [|reflexivity].
      by rewrite isspace_newline in Hc. }
    destruct (split_cons_other newline c rest Hsep) as (seg & segs & _ & ->).
    intros line [= <-]. by exists c, seg.
  - destruct (strip_last s) as [->|(init & c & -> & Hc)]; [discriminate|].
    assert (Hsep : (c =? newline) = false).
    { destruct (N.eqb_spec c newline) as [->|]; [|reflexivity].
      by rewrite isspace_newline in Hc. }
    destruct (split_snoc_other newline init c Hsep) as (segs & seg & ->).
    unfold nonempty_lines. rewrite List.filter_app.
    assert (Hkeep : List.filter (fun line => truthy (PStr line)) [seg ++ [c]]
                    = [seg ++ [c]]) by (by destruct seg).
    rewrite Hkeep, last_snoc. intros line [= <-]. by exists seg, c.
Qed.

(** Between a text and its lines only whitespace is lost, and nothing
    changes place. *)
Lemma text_lines_content s :
  List.filter nonspace (concat (text_lines s)) = List.filter nonspace s.
Proof.
  unfold text_lines. rewrite concat_nonempty_lines, concat_split.
  rewrite <- (filter_nonspace_strip s).
  induction (strip s) as [|c t IH]; simpl; [reflexivity|].
  destruct (N.eqb_spec c newline) as [->|Hne]; simpl; [exact IH|].
  by rewrite IH.
Qed.

Lemma no_newline_check s :
  forallb (fun c => negb (c =? newline)) s = true -> ~ In newline s.
Proof.
  intros H Hin. apply (proj1 (forallb_forall _ _) H) in Hin.
  by rewrite N.eqb_refl in Hin.
Qed.

Lemma uint_digits_no_newline d : ~ In newline (uint_digits d).
Proof.
  induction d; simpl; [intros H; exact H|..];
    (intros [H|H]; [discriminate H|by apply IHd]).
Qed.

Lemma hex2_no_newline b : ~ In newline (hex2 b).
Proof.
  assert (H : forall n, hex_digit n <> newline).
  { intros n. unfold hex_digit, newline. destruct (n <? 10); lia. }
  unfold hex2. simpl. intros [Hd|[Hd|Hd]]; [by apply H in Hd..|exact Hd].
Qed.

Lemma reason_str_no_newline r : ~ In newline (reason_str r).
Proof. destruct r; by apply no_newline_check. Qed.

Lemma decode_error_str_no_newline e : ~ In newline (decode_error_str e).
Proof.
  unfold decode_error_str.
  destruct (de_end e =? de_start e + 1); rewrite !in_app_iff;
    intros H; decompose [or] H; clear H;
    match goal with
    | H : In _ (lit _) |- _ => by apply no_newline_check in H
    | H : In _ (hex2 _) |- _ => by apply hex2_no_newline in H
    | H : In _ (str_of_N _) |- _ => by apply uint_digits_no_newline in H
    | H : In _ (reason_str _) |- _ => by apply reason_str_no_newline in H
    end.
Qed.

Lemma stream_lines_no_newline b lines :
  stream_lines b = inr lines ->
  Forall (fun line => ~ In newline line) (nonempty_lines lines).
Proof.
  unfold stream_lines. intros H. apply nonempty_lines_Forall.
  destruct (bytes_truthy b); [|injection H as <-; constructor].
  destruct (utf8_decode b); [discriminate|]. injection H as <-.
  apply split_no_sep.
Qed.

(** *** [run_cmd_line] *)

(** X1. [communicate] is awaited exactly once when the process was created
    and never when its creation failed; a run causes no other event than
    the creation call and this one. *)
Theorem run_cmd_line_events os cmd args :
  trace (run_cmd_line os cmd args)
  = EvSpawn (spawn_call cmd args)
    :: match os (spawn_call cmd args) with
       | inl _ => []
       | inr _ => [EvCommunicate]
       end.
Proof.
  rewrite run_cmd_line_paths. unfold run_paths.
  destruct (os (spawn_call cmd args)); reflexivity.
Qed.

(** X2. Output that is empty or made of whitespace only gives no line: when
    standard output decodes to a text of whitespace characters, [stdout] is
    the empty list, whatever standard error holds. *)
Theorem blank_output_no_lines os cmd args p out err text :
  os (spawn_call cmd args) = inr p ->
  communicate_result p = inr (out, err) ->
  utf8_decode out = inr text ->
  forallb isspace text = true ->
  exists r, result (run_cmd_line os cmd args) = Returned r /\ stdout r = [].
Proof.
  intros Hos Hcomm Hout Hblank. rewrite run_cmd_line_paths. unfold run_paths.
  rewrite Hos, Hcomm. cbn [result].
  destruct (stream_lines_text _ _ Hout) as (lo & -> & Hlo).
  assert (Hnone : nonempty_lines lo = []).
  { rewrite Hlo. unfold text_lines. by rewrite (strip_all_space _ Hblank). }
  destruct (stream_lines err) as [e|le] eqn:Herr.
  - apply stream_lines_error in Herr as (Hs & He & _).
    unfold handled. rewrite Hs, He. by eexists.
  - eexists. split; [reflexivity|]. exact Hnone.
Qed.

Lemma blank_output_no_lines_witness :
  let out := [Byte.x20; Byte.x0a; Byte.x09; Byte.x0a] in
  let p := prints out 0 in
  utf8_decode out = inr [32; 10; 9; 10]
  /\ forallb isspace [32; 10; 9; 10] = true
  /\ exists r,
       result (run_cmd_line (os_fixed (inr p)) (PStr (lit "true")) PNone)
       = Returned r
       /\ stdout r = [].
Proof.
  intros out p. split; [reflexivity|]. split; [reflexivity|].
  apply (blank_output_no_lines (os_fixed (inr p)) _ _ p out [] [32; 10; 9; 10]);
    reflexivity.
Defined.

(** X3. Once both streams are captured, no line of the result holds a
    newline character: not the lines of [stdout], not those of [stderr], not
    the message reported when a stream does not decode. *)
Theorem lines_have_no_newline os cmd args p out err :
  os (spawn_call cmd args) = inr p ->
  communicate_result p = inr (out, err) ->
  exists r,
    result (run_cmd_line os cmd args) = Returned r
    /\ Forall (fun line => ~ In newline line) (stdout r)
    /\ Forall (fun line => ~ In newline line) (stderr r).
Proof.
  intros Hos Hcomm. rewrite run_cmd_line_paths. unfold run_paths.
  rewrite Hos, Hcomm. cbn [result].
  assert (Hfail : forall b e, stream_lines b = inl e ->
    exists r, handled cmd args e = Returned r
      /\ Forall (fun line => ~ In newline line) (stdout r)
      /\ Forall (fun line => ~ In newline line) (stderr r)).
  { intros b e Hb.
    apply stream_lines_error in Hb as (Hs & He & derr & _ & Hstr).
    unfold handled. rewrite Hs, He. eexists. split; [reflexivity|].
    cbn [stdout stderr envelope]. split; [constructor|].
    constructor; [|constructor]. rewrite Hstr, in_app_iff.
    intros [H|H]; [by apply no_newline_check in H|].
    by apply decode_error_str_no_newline in H. }
  destruct (stream_lines out) as [e|lo] eqn:Hout; [by apply (Hfail out)|].
  destruct (stream_lines err) as [e|le] eqn:Herr; [by apply (Hfail err)|].
  eexists. split; [reflexivity|]. cbn [stdout stderr].
  split; by eapply stream_lines_no_newline.
Qed.

Lemma lines_have_no_newline_witness :
  let out := blit "a" ++ [Byte.x0a] ++ blit "b" in
  let p := Process (inr (out, [Byte.xff])) (Some 0%Z) in
  exists r,
    result (run_cmd_line (os_fixed (inr p)) (PStr (lit "cat")) PNone) = Returned r
    /\ Forall (fun line => ~ In newline line) (stdout r)
    /\ Forall (fun line => ~ In newline line) (stderr r).
Proof.
  intros out p.
  apply (lines_have_no_newline (os_fixed (inr p)) _ _ p out [Byte.xff]);
    reflexivity.
Defined.

(** X4. Output made of ASCII bytes always decodes: the run takes the success
    path, reports the process's own exit status (an absent one as [0]) and
    gives as lines the bytes themselves, read as characters, stripped and
    split. *)
Theorem ascii_output_is_reported os cmd args p out err :
  os (spawn_call cmd args) = inr p ->
  communicate_result p = inr (out, err) ->
  Forall is_ascii out ->
  Forall is_ascii err ->
  result (run_cmd_line os cmd args)
  = Returned {| cmd := cmd;
                args := args;
                status_code := status_as_specified (returncode p);
                stdout := text_lines (List.map Byte.to_N out);
                stderr := text_lines (List.map Byte.to_N err) |}.
Proof.
  intros Hos Hcomm Hout Herr. rewrite run_cmd_line_paths. unfold run_paths.
  rewrite Hos, Hcomm. cbn [result].
  destruct (stream_lines_text out _ (utf8_go_ascii out 0 Hout)) as (lo & -> & ->).
  destruct (stream_lines_text err _ (utf8_go_ascii err 0 Herr)) as (le & -> & ->).
  by rewrite or_zero_status.
Qed.

Lemma ascii_output_is_reported_witness :
  let out := blit "total 0" ++ [Byte.x0a] in
  let err := blit "warning" ++ [Byte.x0a] in
  let p := Process (inr (out, err)) None in
  (Forall is_ascii out /\ Forall is_ascii err)
  /\ result (run_cmd_line (os_fixed (inr p)) (PStr (lit "ls")) (PStr (lit "-l")))
     = Returned {| cmd := PStr (lit "ls");
                   args := PStr (lit "-l");
                   status_code := 0;
                   stdout := [lit "total 0"];
                   stderr := [lit "warning"] |}.
Proof.
  intros out err p.
  assert (Hout : Forall is_ascii out) by (repeat constructor).
  assert (Herr : Forall is_ascii err) by (repeat constructor).
  split; [by split|].
  exact (ascii_output_is_reported (os_fixed (inr p)) (PStr (lit "ls"))
           (PStr (lit "-l")) p out err eq_refl eq_refl Hout Herr).
Defined.

(** X5. An [args] that is false in Python's sense ([None], [""], [0], an
    empty list...) runs the command alone: two such values give the same
    events and the same outcome, up to the [args] field, which echoes each
    value as given. *)
Theorem falsy_args_run_alike os cmd args1 args2 :
  truthy args1 = false ->
  truthy args2 = false ->
  trace (run_cmd_line os cmd args1) = trace (run_cmd_line os cmd args2)
  /\ match result (run_cmd_line os cmd args1), result (run_cmd_line os cmd args2) with
     | Returned r1, Returned r2 =>
         Server.args r1 = args1 /\ Server.args r2 = args2
         /\ Server.cmd r1 = Server.cmd r2
         /\ status_code r1 = status_code r2
         /\ stdout r1 = stdout r2
         /\ stderr r1 = stderr r2
     | Raised e1, Raised e2 => e1 = e2
     | _, _ => False
     end.
Proof.
  intros H1 H2. rewrite !run_cmd_line_paths. unfold run_paths.
  assert (Hcall : spawn_call cmd args1 = spawn_call cmd args2).
  { unfold spawn_call, cmd_list. by rewrite H1, H2. }
  rewrite Hcall.
  assert (Hh : forall e,
    match handled cmd args1 e, handled cmd args2 e with
    | Returned r1, Returned r2 =>
        Server.args r1 = args1 /\ Server.args r2 = args2
        /\ Server.cmd r1 = Server.cmd r2
        /\ status_code r1 = status_code r2
        /\ stdout r1 = stdout r2
        /\ stderr r1 = stderr r2
    | Raised e1, Raised e2 => e1 = e2
    | _, _ => False
    end).
  { intros e. unfold handled. destruct (is_SubprocessError e); [by repeat split|].
    destruct (is_Exception e); by repeat split. }
  destruct (os (spawn_call cmd args2)) as [e|p]; cbn [trace result];
    (split; [reflexivity|]); [apply Hh|].
  destruct (communicate_result p) as [e|[out err]]; [apply Hh|].
  destruct (stream_lines out) as [e|lo]; [apply Hh|].
  destruct (stream_lines err) as [e|le]; [apply Hh|].
  by repeat split.
Qed.

Lemma falsy_args_run_alike_witness :
  truthy (PStr []) = false
  /\ truthy PNone = false
  /\ trace (run_cmd_line os_echo_only (PStr (lit "echo")) (PStr []))
     = trace (run_cmd_line os_echo_only (PStr (lit "echo")) PNone)
  /\ match result (run_cmd_line os_echo_only (PStr (lit "echo")) (PStr [])),
           result (run_cmd_line os_echo_only (PStr (lit "echo")) PNone) with
     | Returned r1, Returned r2 =>
         Server.args r1 = PStr [] /\ Server.args r2 = PNone
         /\ Server.cmd r1 = Server.cmd r2
         /\ status_code r1 = status_code r2
         /\ stdout r1 = stdout r2
         /\ stderr r1 = stderr r2
     | Raised e1, Raised e2 => e1 = e2
     | _, _ => False
     end.
Proof.
  split; [reflexivity|]. split; [reflexivity|].
  apply (falsy_args_run_alike os_echo_only (PStr (lit "echo")) (PStr []) PNone);
    reflexivity.
Defined.

(** X6. On the success path the lines have clean ends: the first line of
    [stdout] (and of [stderr]) does not begin with whitespace and the last
    does not end with it; whitespace inside and between the ends stays. *)
Theorem outer_whitespace_removed os cmd args p out err text_out text_err :
  os (spawn_call cmd args) = inr p ->
  communicate_result p = inr (out, err) ->
  utf8_decode out = inr text_out ->
  utf8_decode err = inr text_err ->
  exists r,
    result (run_cmd_line os cmd args) = Returned r
    /\ clean_ends (stdout r) /\ clean_ends (stderr r).
Proof.
  intros Hos Hcomm Hout Herr. rewrite run_cmd_line_paths. unfold run_paths.
  rewrite Hos, Hcomm. cbn [result].
  destruct (stream_lines_text _ _ Hout) as (lo & -> & Hlo).
  destruct (stream_lines_text _ _ Herr) as (le & -> & Hle).
  eexists. split; [reflexivity|]. cbn [stdout stderr]. rewrite Hlo, Hle.
  split; apply text_lines_clean_ends.
Qed.

Lemma outer_whitespace_removed_witness :
  let out := [Byte.x0a] ++ blit "  a  " ++ [Byte.x0a] ++ blit " b " ++ [Byte.x0a] in
  let p := prints out 0 in
  exists r,
    result (run_cmd_line (os_fixed (inr p)) (PStr (lit "cat")) PNone) = Returned r
    /\ stdout r = [lit "a  "; lit " b"]
    /\ clean_ends (stdout r) /\ clean_ends (stderr r).
Proof.
  intros out p.
  destruct (outer_whitespace_removed (os_fixed (inr p)) (PStr (lit "cat")) PNone
              p out [] _ _ eq_refl eq_refl eq_refl eq_refl)
    as (r & Hr & Hends).
  exists r. split; [exact Hr|]. split; [|exact Hends].
  vm_compute in Hr. injection Hr as <-. reflexivity.
Defined.

(** X7. A result that holds any [stdout] line comes from the success path:
    the process was created and [status_code] is its own exit status (an
    absent one as [0]), never the [1] of the [except] clauses. *)
Theorem stdout_implies_real_status os cmd args r :
  result (run_cmd_line os cmd args) = Returned r ->
  stdout r <> [] ->
  exists p,
    os (spawn_call cmd args) = inr p
    /\ status_code r = status_as_specified (returncode p).
Proof.
  rewrite run_cmd_line_paths. unfold run_paths.
  assert (Hh : forall e, handled cmd args e = Returned r -> stdout r = []).
  { intros e. unfold handled. destruct (is_SubprocessError e); [by intros [= <-]|].
    destruct (is_Exception e); [by intros [= <-]|discriminate]. }
  destruct (os (spawn_call cmd args)) as [e|p]; cbn [result];
    [intros Hr Hne; by apply Hh in Hr|].
  destruct (communicate_result p) as [e|[out err]];
    [intros Hr Hne; by apply Hh in Hr|].
  destruct (stream_lines out) as [e|lo];
    [intros Hr Hne; by apply Hh in Hr|].
  destruct (stream_lines err) as [e|le];
    [intros Hr Hne; by apply Hh in Hr|].
  intros [= <-] _. exists p. split; [reflexivity|]. apply or_zero_status.
Qed.

Lemma stdout_implies_real_status_witness :
  let r := {| cmd := PStr (lit "echo");
              args := PStr (lit "hello world");
              status_code := 0;
              stdout := [lit "hello world"];
              stderr := [] |} in
  result (run_cmd_line os_echo_only (PStr (lit "echo")) (PStr (lit "hello world")))
  = Returned r
  /\ stdout r <> []
  /\ exists p,
       os_echo_only (spawn_call (PStr (lit "echo")) (PStr (lit "hello world"))) = inr p
       /\ status_code r = status_as_specified (returncode p).
Proof.
  intros r. split; [reflexivity|]. split; [discriminate|].
  apply (stdout_implies_real_status os_echo_only (PStr (lit "echo"))
           (PStr (lit "hello world")) r); [reflexivity|discriminate].
Defined.

(** X8. On the success path nothing but whitespace is lost and nothing
    changes place: the characters of the [stdout] lines that are not
    whitespace, read in order, are those of the decoded standard output (and
    likewise for [stderr]). *)
Theorem only_whitespace_is_lost os cmd args p out err text_out text_err :
  os (spawn_call cmd args) = inr p ->
  communicate_result p = inr (out, err) ->
  utf8_decode out = inr text_out ->
  utf8_decode err = inr text_err ->
  exists r,
    result (run_cmd_line os cmd args) = Returned r
    /\ List.filter nonspace (concat (stdout r)) = List.filter nonspace text_out
    /\ List.filter nonspace (concat (stderr r)) = List.filter nonspace text_err.
Proof.
  intros Hos Hcomm Hout Herr. rewrite run_cmd_line_paths. unfold run_paths.
  rewrite Hos, Hcomm. cbn [result].
  destruct (stream_lines_text _ _ Hout) as (lo & -> & Hlo).
  destruct (stream_lines_text _ _ Herr) as (le & -> & Hle).
  eexists. split; [reflexivity|]. cbn [stdout stderr]. rewrite Hlo, Hle.
  split; apply text_lines_content.
Qed.

Lemma only_whitespace_is_lost_witness :
  let out := blit " a b" ++ [Byte.x0a; Byte.x0a] ++ blit "c " in
  let p := prints out 0 in
  exists r,
    result (run_cmd_line (os_fixed (inr p)) (PStr (lit "cat")) PNone) = Returned r
    /\ List.filter nonspace (concat (stdout r)) = lit "abc"
    /\ List.filter nonspace (concat (stderr r)) = [].
Proof.
  intros out p.
  exact (only_whitespace_is_lost (os_fixed (inr p)) (PStr (lit "cat")) PNone
           p out [] _ _ eq_refl eq_refl eq_refl eq_refl).
Defined.

(** *** [call_tool] *)

Lemma call_tool_unknown_name (os : world) (js : serialiser) (name : pystr)
    (arguments : pyval) :
  name <> lit "run_command" ->
  call_tool os js name arguments
  = Run [] (Raised (Exn ValueError (lit "Unknown tool: " ++ name))).
Proof.
  intros Hname. unfold call_tool, str_eqb.
  by rewrite bool_decide_eq_false_2.
Qed.

Lemma call_tool_bad_payload (os : world) (js : serialiser) (arguments : pyval) :
  is_dict_with_cmd arguments = false ->
  call_tool os js (lit "run_command") arguments
  = Run [] (Raised (Exn ValueError (lit "Invalid arguments"))).
Proof.
  intros Hargs. unfold call_tool.
  change (str_eqb (lit "run_command") (lit "run_command")) with true.
  cbn [negb]. destruct arguments as [| | | | | |d]; try reflexivity.
  cbn [is_dict_with_cmd] in Hargs. apply bool_decide_eq_false in Hargs.
  destruct (d !! lit "cmd") as [c|] eqn:Hc; [|reflexivity].
  exfalso. apply Hargs. by eexists.
Qed.

Lemma run_cmd_line_no_log os cmd args :
  existsb is_log (trace (run_cmd_line os cmd args)) = false.
Proof.
  rewrite run_cmd_line_paths. unfold run_paths.
  destruct (os (spawn_call cmd args)); reflexivity.
Qed.

(** The serialiser at work: a [cmd] that is an [int] of more than 4300
    digits passes both checks, fails to start, and its result cannot be
    printed; the failure is logged and raised again as [RuntimeError]. *)
Lemma unprintable_result_is_logged (n : Z) :
  (10 ^ 4300 <= Z.abs n)%Z ->
  let d : gmap pystr pyval := {[ lit "cmd" := PInt n ]} in
  let msg := lit "Error: Exceeds the limit (4300 digits) for integer string conversion; use sys.set_int_max_str_digits() to increase the limit" in
  call_tool os_not_found dumps_int_limit (lit "run_command") (PDict d)
  = Run [EvSpawn (SubprocessExec [PInt n] None (Some PIPE) (Some PIPE));
         EvLogError msg]
        (Raised (Exn RuntimeError msg)).
Proof.
  intros Hn d msg.
  rewrite (call_tool_accepted os_not_found dumps_int_limit d (PInt n));
    [|subst d; apply lookup_singleton_eq].
  cbv zeta. rewrite run_cmd_line_paths.
  assert (Hargs : args_of d = PNone) by reflexivity. rewrite Hargs.
  unfold run_paths, os_not_found, os_fixed, handled. cbn [result trace].
  cbn [is_SubprocessError is_Exception enoent exn_type].
  unfold dumps_int_limit, envelope. cbn [cmd].
  apply Z.leb_le in Hn. rewrite Hn. reflexivity.
Qed.

(** X9. For a request named ["run_command"] whose payload holds [cmd]: when
    [run_cmd_line] returns a result for the payload's [cmd] and [args]
    ([None] when the key is absent) and [json.dumps] returns on that result,
    [call_tool] returns the one [TextContent] of type ["text"] holding
    [json.dumps(result, indent=2)], with the events of that run and no
    other. *)
Theorem call_tool_wraps_result (os : world) (js : serialiser)
    (d : gmap pystr pyval) (cmd : pyval) (r : CommandResult) :
  d !! lit "cmd" = Some cmd ->
  result (run_cmd_line os cmd (args_of d)) = Returned r ->
  js r = None ->
  call_tool os js (lit "run_command") (PDict d)
  = Run (trace (run_cmd_line os cmd (args_of d)))
        (Returned [ {| type := lit "text"; text := json_dumps r 2 |} ]).
Proof.
  intros Hc Hr Hjs. rewrite (call_tool_accepted os js d cmd Hc). cbv zeta.
  by rewrite Hr, Hjs.
Qed.

Lemma call_tool_wraps_result_witness :
  let d : gmap pystr pyval := {[ lit "cmd" := PStr (lit "nonexistent_binary_xyz") ]} in
  let r := envelope (PStr (lit "nonexistent_binary_xyz")) PNone
             (lit "Unexpected error: " ++ exn_str enoent) in
  d !! lit "cmd" = Some (PStr (lit "nonexistent_binary_xyz"))
  /\ dumps_int_limit r = None
  /\ call_tool os_not_found dumps_int_limit (lit "run_command") (PDict d)
     = Run [EvSpawn (SubprocessExec [PStr (lit "nonexistent_binary_xyz")]
                       None (Some PIPE) (Some PIPE))]
           (Returned [ {| type := lit "text"; text := json_dumps r 2 |} ]).
Proof.
  intros d r. split; [reflexivity|]. split; [reflexivity|].
  apply (call_tool_wraps_result os_not_found dumps_int_limit d
           (PStr (lit "nonexistent_binary_xyz")) r); reflexivity.
Defined.

(** X10. The ways a call of [call_tool] can end, and what was logged. It
    returns one [TextContent] of a result that [json.dumps] printed, nothing
    logged; or it raises a [ValueError] before anything was done; or it lets
    through an exception that does not derive from [Exception], nothing
    logged; or -- the one way to the [except] clause -- [run_cmd_line]
    returned a result, [json.dumps] raised an [Exception] on it, and the
    call logs ["Error: " + str(e)] once, after the events of the run, and
    raises [RuntimeError] with the same message. A failure of the runner
    never takes that way. *)
Theorem call_tool_outcomes (os : world) (js : serialiser) (name : pystr)
    (arguments : pyval) :
  match result (call_tool os js name arguments) with
  | Returned contents =>
      existsb is_log (trace (call_tool os js name arguments)) = false
      /\ exists r,
           contents = [ {| type := lit "text"; text := json_dumps r 2 |} ]
           /\ js r = None
  | Raised e =>
      (exn_type e = ValueError /\ trace (call_tool os js name arguments) = [])
      \/ (is_Exception e = false
          /\ existsb is_log (trace (call_tool os js name arguments)) = false)
      \/ (exists cmd args r e',
            result (run_cmd_line os cmd args) = Returned r
            /\ js r = Some e'
            /\ is_Exception e' = true
            /\ e = Exn RuntimeError (lit "Error: " ++ exn_str e')
            /\ trace (call_tool os js name arguments)
               = trace (run_cmd_line os cmd args)
                 ++ [EvLogError (lit "Error: " ++ exn_str e')])
  end.
Proof.
  destruct (decide (name = lit "run_command")) as [->|Hname];
    [|rewrite (call_tool_unknown_name os js name arguments Hname); by left].
  destruct (is_dict_with_cmd arguments) eqn:Hargs;
    [|rewrite (call_tool_bad_payload os js arguments Hargs); by left].
  destruct arguments as [| | | | | |d]; try discriminate Hargs.
  cbn [is_dict_with_cmd] in Hargs. apply bool_decide_eq_true in Hargs as [c Hc].
  rewrite (call_tool_accepted os js d c Hc). cbv zeta.
  pose proof (run_cmd_line_raises os c (args_of d)) as Hraise.
  pose proof (run_cmd_line_no_log os c (args_of d)) as Hlog.
  destruct (result (run_cmd_line os c (args_of d))) as [r|e] eqn:Hr;
    [|right; left; split; [by apply Hraise|exact Hlog]].
  destruct (js r) as [e|] eqn:Hjs; [|split; [exact Hlog|by exists r]].
  destruct (is_Exception e) eqn:He; cbn [trace result].
  - right; right. by exists c, (args_of d), r, e.
  - right; left. by split.
Qed.

(** X11. [call_tool] reads two things of the payload and nothing else: the
    value under [cmd] and the value under [args], an absent [args] standing
    for [None]. Two payloads that agree on these are treated alike, whatever
    other keys they hold. *)
Theorem call_tool_reads_cmd_and_args (os : world) (js : serialiser)
    (name : pystr) (d1 d2 : gmap pystr pyval) :
  d1 !! lit "cmd" = d2 !! lit "cmd" ->
  args_of d1 = args_of d2 ->
  call_tool os js name (PDict d1) = call_tool os js name (PDict d2).
Proof.
  intros Hcmd Hargs.
  destruct (decide (name = lit "run_command")) as [->|Hname];
    [|by rewrite !call_tool_unknown_name].
  destruct (d2 !! lit "cmd") as [c|] eqn:Hc.
  - rewrite (call_tool_accepted os js d1 c Hcmd), (call_tool_accepted os js d2 c Hc).
    by rewrite Hargs.
  - rewrite !call_tool_bad_payload; [reflexivity|..];
      cbn [is_dict_with_cmd]; apply bool_decide_eq_false;
      rewrite ?Hcmd, ?Hc; by intros [? ?].
Qed.

Lemma call_tool_reads_cmd_and_args_witness :
  let d1 : gmap pystr pyval := {[ lit "cmd" := PStr (lit "echo") ]} in
  let d2 : gmap pystr pyval :=
    <[ lit "args" := PNone ]>
      (<[ lit "timeout" := PInt 5 ]> {[ lit "cmd" := PStr (lit "echo") ]}) in
  d1 !! lit "cmd" = d2 !! lit "cmd"
  /\ args_of d1 = args_of d2
  /\ d1 <> d2
  /\ call_tool os_echo_only dumps_all (lit "run_command") (PDict d1)
     = call_tool os_echo_only dumps_all (lit "run_command") (PDict d2).
Proof.
  intros d1 d2.
  assert (Hcmd : d1 !! lit "cmd" = d2 !! lit "cmd") by reflexivity.
  assert (Hargs : args_of d1 = args_of d2) by reflexivity.
  split; [exact Hcmd|]. split; [exact Hargs|]. split.
  - intros Heq. assert (H : d1 !! lit "timeout" = d2 !! lit "timeout")
      by (by rewrite Heq). discriminate H.
  - exact (call_tool_reads_cmd_and_args os_echo_only dumps_all
             (lit "run_command") d1 d2 Hcmd Hargs).
Defined.

(** X12. [call_tool] checks that [cmd] is there, not what it is: the values
    under [cmd] and [args] go to the process-creation call as they are, of
    whatever type, [args] only when it is true in Python's sense; and that
    call is the only one made. *)
Theorem call_tool_passes_values_on (os : world) (js : serialiser)
    (d : gmap pystr pyval) (cmd : pyval) :
  d !! lit "cmd" = Some cmd ->
  os_calls (trace (call_tool os js (lit "run_command") (PDict d)))
  = [SubprocessExec (if truthy (args_of d) then [cmd; args_of d] else [cmd])
       None (Some PIPE) (Some PIPE)].
Proof.
  intros Hc. rewrite (call_tool_invokes_runner os js d cmd Hc).
  fold (args_of d). unfold spawn_call, cmd_list.
  by destruct (truthy (args_of d)).
Qed.

Lemma call_tool_passes_values_on_witness :
  let d : gmap pystr pyval :=
    <[ lit "args" := PList [PStr (lit "-l")] ]> {[ lit "cmd" := PInt 42 ]} in
  d !! lit "cmd" = Some (PInt 42)
  /\ os_calls (trace (call_tool os_not_found dumps_all (lit "run_command") (PDict d)))
     = [SubprocessExec [PInt 42; PList [PStr (lit "-l")]]
          None (Some PIPE) (Some PIPE)].
Proof.
  intros d. split; [reflexivity|].
  apply (call_tool_passes_values_on os_not_found dumps_all d (PInt 42)).
  reflexivity.
Defined.

(** X13. The payload check of [call_tool] is the ["required"] list of the
    schema [list_tools] advertises: a dictionary payload sent to
    ["run_command"] is rejected with ["Invalid arguments"] exactly when it
    lacks a key of that list. *)
Theorem check_matches_advertised_schema (os : world) (js : serialiser)
    (d : gmap pystr pyval) :
  exists schema,
    advertised_schema = Some schema
    /\ (call_tool os js (lit "run_command") (PDict d)
        = Run [] (Raised (Exn ValueError (lit "Invalid arguments")))
        <-> exists k, In k (required_keys schema) /\ d !! k = None).
Proof.
  eexists. split; [reflexivity|].
  change (required_keys _) with [lit "cmd"]. split.
  - intros Hcall. exists (lit "cmd"). split; [by left|].
    destruct (d !! lit "cmd") as [c|] eqn:Hc; [|reflexivity].
    pose proof (call_tool_invokes_runner os js d c Hc) as Hcalls.
    rewrite Hcall in Hcalls. discriminate Hcalls.
  - intros (k & [<-|[]] & Hk). apply call_tool_bad_payload.
    cbn [is_dict_with_cmd]. apply bool_decide_eq_false. rewrite Hk. by intros [? ?].
Qed.
